(** * q2-chemistree: the SIRIUS command-line wrapper ([_fingerprint.py])

    A shallow embedding of [q2_chemistree/_fingerprint.py]: the process
    runner [run_command], the artifact factory [artifactory] and the three
    stage functions.  The Python code talks to the operating system
    (file-system tests, [os.environ], [open], [subprocess.run], [print]);
    here these are primitive operations of a state-and-exception monad over
    a [World] that also records, in program order, every operating-system
    call made. *)

From Stdlib Require Import Ascii String ZArith Lia.
From stdpp Require Import gmap strings list pretty.

Open Scope Z_scope.
Open Scope string_scope.

(** ** Python values used by the module *)

(** [str(n)] for a Python [int]. *)
Definition str_int (n : Z) : string := pretty n.

(** [sep.join(xs)]. *)
Fixpoint str_join (sep : string) (xs : list string) : string :=
  match xs with
  | [] => ""
  | [x] => x
  | x :: rest => x +:+ sep +:+ str_join sep rest
  end.

(** [s.startswith(c)] and [s.endswith(c)] for a one-character [c]. *)
Definition startswith_char (c : ascii) (s : string) : bool :=
  match s with
  | String a _ => bool_decide (a = c)
  | EmptyString => false
  end.

Fixpoint endswith_char (c : ascii) (s : string) : bool :=
  match s with
  | EmptyString => false
  | String a EmptyString => bool_decide (a = c)
  | String _ rest => endswith_char c rest
  end.

(** [os.path.join(a, b)] of [posixpath], for two components: an absolute
    [b] replaces [a]; no separator is added after an empty [a] or an [a]
    that already ends with one. *)
Definition os_path_join (a b : string) : string :=
  if startswith_char "/" b then b
  else if bool_decide (a = "") || endswith_char "/" a then a +:+ b
  else a +:+ "/" +:+ b.

(** A directory-format object ([MGFDirFmt], [SiriusDirFmt], [ZodiacDirFmt],
    [CSIDirFmt] of [._semantics]): what the module uses of it is
    [str(obj.path)] and [obj.get_path()]. *)
Record DirFmt := mkDirFmt {
  path : string;
  get_path : string
}.

(** ** Exceptions *)

Inductive errno := ENOENT | EACCES | EISDIR | ENOTDIR.

Inductive exn :=
  | OSError (msg : string)
  | OSErrno (e : errno) (filename : string)
  | CalledProcessError (returncode : Z) (cmd : list string).

Inductive res (A : Type) :=
  | Ok (a : A)
  | Raise (e : exn).
Arguments Ok {A} a.
Arguments Raise {A} e.

(** ** The world *)

(** How an attempt to run a child process ends: it ran and exited with a
    status, or it could not be started. *)
Inductive proc_outcome :=
  | Exited (status : Z)
  | ExecFailed (e : errno).

(** Operating-system calls, as recorded in the world's trace. *)
Inductive event :=
  | EvMkdir (p : string)
  | EvExists (p : string)
  | EvGetenv (k : string)
  | EvSetenv (k v : string)
  | EvOpen (fp : string)
  | EvClose (fp : string)
  | EvSpawn (cmd : list string) (stdout_fp : string)
            (env : gmap string string)
  | EvPrint (s : string).

(** [fs]: the paths that exist.  [environ]: [os.environ].  [open_w] and
    [child] give the behaviour of the operating system that the module does
    not determine: whether a file can be opened for writing, and how a
    command run in a given environment ends.  [trace] is the history of
    calls, oldest first. *)
Record World := mkWorld {
  fs : gset string;
  environ : gmap string string;
  open_w : string -> option errno;
  child : list string -> gmap string string -> proc_outcome;
  trace : list event
}.

Definition log (e : event) (w : World) : World :=
  mkWorld (fs w) (environ w) (open_w w) (child w) (trace w ++ [e]).

Definition set_environ (env : gmap string string) (w : World) : World :=
  mkWorld (fs w) env (open_w w) (child w) (trace w).

Definition set_fs (s : gset string) (w : World) : World :=
  mkWorld s (environ w) (open_w w) (child w) (trace w).

(** ** The monad: state passing with exceptions *)

Definition M (A : Type) : Type := World -> res A * World.

Definition ret {A} (a : A) : M A := fun w => (Ok a, w).

Definition raise {A} (e : exn) : M A := fun w => (Raise e, w).

Definition bind {A B} (m : M A) (f : A -> M B) : M B :=
  fun w =>
    match m w with
    | (Ok a, w') => f a w'
    | (Raise e, w') => (Raise e, w')
    end.

Notation "'do' x <- m ; k" := (bind m (fun x => k))
  (at level 10, x name, m at level 100, k at level 200).
Notation "'run' m ; k" := (bind m (fun _ => k))
  (at level 10, m at level 100, k at level 200).

(** [when b m]: a Python [if b: m] with no [else]. *)
Definition when (b : bool) (m : M unit) : M unit :=
  if b then m else ret tt.

(** ** Operating-system primitives *)

(** [os.path.exists(p)] *)
Definition os_path_exists (p : string) : M bool :=
  fun w => (Ok (bool_decide (p ∈ fs w)), log (EvExists p) w).

(** [os.environ.get(k, dflt)] *)
Definition os_environ_get (k dflt : string) : M string :=
  fun w => (Ok (default dflt (environ w !! k)), log (EvGetenv k) w).

(** [os.environ[k] = v] *)
Definition os_environ_set (k v : string) : M unit :=
  fun w => (Ok tt, log (EvSetenv k v) (set_environ (<[k := v]> (environ w)) w)).

(** [print(s, end=e)] *)
Definition print (s e : string) : M unit :=
  fun w => (Ok tt, log (EvPrint (s +:+ e)) w).

(** [with open(fp, 'w') as f: body]: the file is created (or truncated),
    the body runs, and the file is closed on every way out of the body. *)
Definition with_open_w {A} (fp : string) (body : M A) : M A :=
  fun w =>
    match open_w w fp with
    | Some e => (Raise (OSErrno e fp), log (EvOpen fp) w)
    | None =>
        let (r, w') := body (log (EvOpen fp) (set_fs ({[fp]} ∪ fs w) w)) in
        (r, log (EvClose fp) w')
    end.

(** [subprocess.run(cmd, stdout=f, check=True)]: the child inherits the
    current [os.environ]; a child that cannot be started raises the
    operating system's error, a nonzero exit status raises
    [CalledProcessError] with that status. *)
Definition subprocess_run_check (cmd : list string) (stdout_fp : string)
  : M unit :=
  fun w =>
    let w' := log (EvSpawn cmd stdout_fp (environ w)) w in
    match child w cmd (environ w) with
    | ExecFailed e => (Raise (OSErrno e (default "" (head cmd))), w')
    | Exited status =>
        if bool_decide (status = 0) then (Ok tt, w')
        else (Raise (CalledProcessError status cmd), w')
    end.

(** ** The module *)

Definition nl : string := String "010" "".

(** [run_command(cmd, output_fp, verbose=True)] *)
Definition run_command (cmd : list string) (output_fp : string)
  (verbose : bool) : M unit :=
  run when verbose (
    run print ("Running external command line application. This may print "
               +:+ "messages to stdout and/or stderr.") nl;
    run print ("The command being run is below. This command cannot "
               +:+ "be manually re-run as it will depend on temporary files that "
               +:+ "no longer exist.") nl;
    run print (nl +:+ "Command:") " ";
    print (str_join " " cmd) (nl +:+ nl));
  with_open_w output_fp (subprocess_run_check cmd output_fp).

(** [artifactory(sirius_path, parameters, java_flags=None, constructor=None)]
    *)
Definition artifactory (sirius_path : string) (parameters : list string)
  (java_flags : option string) (constructor : M DirFmt) : M DirFmt :=
  do artifact <- constructor;
  do found <- os_path_exists sirius_path;
  run when (negb found) (raise (OSError "SIRIUS could not be located"));
  let sirius := os_path_join sirius_path "sirius" in
  do initial_flags <- os_environ_get "_JAVA_OPTIONS" "";
  run match java_flags with
      | Some jf => os_environ_set "_JAVA_OPTIONS" (initial_flags +:+ " " +:+ jf)
      | None => ret tt
      end;
  let cmdsir := ([sirius; "-o"; get_path artifact] ++ parameters)%list in
  run run_command cmdsir (os_path_join (path artifact) "stdout.txt") true;
  run match java_flags with
      | Some _ => os_environ_set "_JAVA_OPTIONS" initial_flags
      | None => ret tt
      end;
  ret artifact.

Section Stages.

(** Python's [float] and its [str] are not modelled; the three result
    types of [._semantics] enter as their zero-argument constructors. *)
Variable float : Type.
Variable str_float : float -> string.
Variables SiriusDirFmt ZodiacDirFmt CSIDirFmt : M DirFmt.

(** Lines 96-99 of [compute_fragmentation_trees]: the local
    [ionization_flag]; [None] when neither branch binds it. *)
Definition ionization_flag (ionization_mode : string) : option string :=
  if bool_decide (ionization_mode = "auto")
     || bool_decide (ionization_mode = "positive")
  then Some "--auto-charge"
  else if bool_decide (ionization_mode = "negative")
  then Some "--ion=[M-H]-"
  else None.

(** Lines 101-111: the local [params] of [compute_fragmentation_trees]. *)
Definition fragmentation_params (features : DirFmt) (ppm_max : Z)
  (profile : string) (tree_timeout maxmz n_jobs num_candidates : Z)
  (database : string) : list string :=
  ["--quiet";
   "--initial-compound-buffer"; str_int 1;
   "--max-compound-buffer"; str_int 32; "--profile"; profile;
   "--database"; database;
   "--candidates"; str_int num_candidates;
   "--processors"; str_int n_jobs;
   "--trust-ion-prediction";
   "--maxmz"; str_int maxmz;
   "--tree-timeout"; str_int tree_timeout;
   "--ppm-max"; str_int ppm_max;
   os_path_join (path features) "features.mgf"].

Definition compute_fragmentation_trees (sirius_path : string)
  (features : DirFmt) (ppm_max : Z) (profile : string)
  (tree_timeout maxmz n_jobs num_candidates : Z) (database : string)
  (ionization_mode : string) (java_flags : option string) : M DirFmt :=
  let ionization_flag := ionization_flag ionization_mode in
  let params := fragmentation_params features ppm_max profile tree_timeout
                  maxmz n_jobs num_candidates database in
  artifactory sirius_path params java_flags SiriusDirFmt.

(** Lines 147-151: the local [params] of [rerank_molecular_formulas]. *)
Definition rerank_params (fragmentation_trees features : DirFmt)
  (zodiac_threshold : float) (n_jobs : Z) : list string :=
  ["--zodiac"; "--sirius";
   get_path fragmentation_trees;
   "--thresholdfilter"; str_float zodiac_threshold;
   "--processors"; str_int n_jobs;
   "--spectra"; os_path_join (path features) "features.mgf"].

Definition rerank_molecular_formulas (sirius_path : string)
  (fragmentation_trees features : DirFmt) (zodiac_threshold : float)
  (n_jobs : Z) (java_flags : option string) : M DirFmt :=
  let params := rerank_params fragmentation_trees features zodiac_threshold
                  n_jobs in
  artifactory sirius_path params java_flags ZodiacDirFmt.

(** Lines 184-186: the local [params] of [predict_fingerprints]. *)
Definition fingerprint_params (molecular_formulas : DirFmt) (ppm_max : Z)
  (n_jobs : Z) (fingerid_db : string) : list string :=
  ["--processors"; str_int n_jobs; "--fingerid";
   "--fingerid-db"; fingerid_db; "--ppm-max"; str_int ppm_max;
   get_path molecular_formulas].

Definition predict_fingerprints (sirius_path : string)
  (molecular_formulas : DirFmt) (ppm_max : Z) (n_jobs : Z)
  (fingerid_db : string) (java_flags : option string) : M DirFmt :=
  let params := fingerprint_params molecular_formulas ppm_max n_jobs
                  fingerid_db in
  artifactory sirius_path params java_flags CSIDirFmt.

End Stages.

(** ** Concrete worlds for the examples *)

(** Modelled from the spec: the result-handle constructors live in
    [._semantics], which is not part of the sources at hand.  The spec has
    a result handle stand for a directory on disk whose path is allocated
    when the handle is constructed, before the tool is invoked; [new_dirfmt]
    creates such a directory and returns a handle rooted there. *)
Definition new_dirfmt (name : string) : M DirFmt :=
  fun w =>
    let d := "/tmp/q2-" +:+ name +:+ "-" +:+ pretty (length (trace w)) in
    (Ok (mkDirFmt d d), log (EvMkdir d) (set_fs ({[d]} ∪ fs w) w)).

(** A machine where [/opt/sirius] is installed, every file can be opened
    and the tool exits with [status]. *)
Definition world0 (env : gmap string string) (status : Z) : World :=
  mkWorld {["/opt/sirius"; "/opt/sirius/sirius"]} env
    (fun _ => None) (fun _ _ => Exited status) [].

Definition features0 : DirFmt := mkDirFmt "/data/mgf" "/data/mgf".

(** The same machine, where the installation is named with a trailing
    separator. *)
Definition world_slash : World :=
  mkWorld {["/opt/sirius/"; "/opt/sirius/sirius"]} ∅
    (fun _ => None) (fun _ _ => Exited 0) [].

(** ** Observations on a trace *)

(** The child processes started: command, file receiving the standard
    output, environment inherited. *)
Definition spawns (t : list event)
  : list (list string * string * gmap string string) :=
  omap (fun e => match e with
                 | EvSpawn c o env => Some (c, o, env)
                 | _ => None
                 end) t.

(** The files opened for writing. *)
Definition opens (t : list event) : list string :=
  omap (fun e => match e with EvOpen fp => Some fp | _ => None end) t.

(** The writes to [os.environ]. *)
Definition env_writes (t : list event) : list (string * string) :=
  omap (fun e => match e with EvSetenv k v => Some (k, v) | _ => None end) t.

(** What [run_command] prints when [verbose]. *)
Definition announcement (cmd : list string) : list event :=
  [EvPrint (("Running external command line application. This may print "
             +:+ "messages to stdout and/or stderr.") +:+ nl);
   EvPrint (("The command being run is below. This command cannot "
             +:+ "be manually re-run as it will depend on temporary files that "
             +:+ "no longer exist.") +:+ nl);
   EvPrint ((nl +:+ "Command:") +:+ " ");
   EvPrint (str_join " " cmd +:+ (nl +:+ nl))].

Definition emit (es : list event) (w : World) : World :=
  mkWorld (fs w) (environ w) (open_w w) (child w) (trace w ++ es).

(** The result of a child's outcome under [check=True]. *)
Definition checked (cmd : list string) (o : proc_outcome) : res unit :=
  match o with
  | ExecFailed e => Raise (OSErrno e (default "" (head cmd)))
  | Exited status =>
      if bool_decide (status = 0) then Ok tt
      else Raise (CalledProcessError status cmd)
  end.

(** Lines 34, 40 and 41 of [artifactory]: the command line and the file
    that receives the tool's standard output. *)
Definition cmdsir (sirius_path : string) (artifact : DirFmt)
  (parameters : list string) : list string :=
  ([os_path_join sirius_path "sirius"; "-o"; get_path artifact]
     ++ parameters)%list.

Definition stdout_txt (artifact : DirFmt) : string :=
  os_path_join (path artifact) "stdout.txt".

(** Line 36: the value [artifactory] reads for the variable. *)
Definition initial_flags (env : gmap string string) : string :=
  default "" (env !! "_JAVA_OPTIONS").

(** Lines 37-39: [os.environ] as the tool sees it. *)
Definition java_environ (java_flags : option string)
  (env : gmap string string) : gmap string string :=
  match java_flags with
  | Some jf => <["_JAVA_OPTIONS" := initial_flags env +:+ " " +:+ jf]> env
  | None => env
  end.

(** Lines 43-44: [os.environ] after the tool has succeeded. *)
Definition restored_environ (java_flags : option string)
  (env : gmap string string) : gmap string string :=
  match java_flags with
  | Some jf => <["_JAVA_OPTIONS" := initial_flags env]> env
  | None => env
  end.

(** The operating-system calls of [artifactory] up to the point where the
    tool has run, and the calls that follow its success. *)
Definition setenv_events (java_flags : option string) (v : string)
  : list event :=
  match java_flags with
  | Some _ => [EvSetenv "_JAVA_OPTIONS" v]
  | None => []
  end.

Definition prologue (sirius_path : string) (java_flags : option string)
  (env : gmap string string) : list event :=
  [EvExists sirius_path; EvGetenv "_JAVA_OPTIONS"]
    ++ setenv_events java_flags
         (initial_flags env +:+ " " +:+ default "" java_flags).

Definition epilogue (java_flags : option string)
  (env : gmap string string) : list event :=
  setenv_events java_flags (initial_flags env).

(** The events that [m], a call of the factory with [constructor], adds to
    the trace once the handle has been constructed. *)
Definition new_events (constructor m : M DirFmt) (w : World) : list event :=
  drop (length (trace (constructor w).2)) (trace (m w).2).

(** Running [m] in [w] starts the tool with parameter list [params] (what
    follows the executable, [-o] and the output directory on its command
    line). *)
Definition invokes (constructor m : M DirFmt) (w : World)
  (params : list string) : Prop :=
  exists cmd out env,
    (cmd, out, env) ∈ spawns (new_events constructor m w)
    /\ params = drop 3 cmd.

(** A machine with some history, a different environment and a tool that
    exits with status 1. *)
Definition world1 : World :=
  log (EvPrint "") (world0 {["_JAVA_OPTIONS" := "-Dfoo=bar"]} 1).

(** What has been printed on the standard output. *)
Definition prints (t : list event) : list string :=
  omap (fun e => match e with EvPrint s => Some s | _ => None end) t.

(** A machine where no file can be opened for writing, and one where the
    installation directory exists but the launcher cannot be started. *)
Definition world_readonly : World :=
  mkWorld {["/opt/sirius"]} ∅ (fun _ => Some EACCES) (fun _ _ => Exited 0) [].

Definition world_noexec : World :=
  mkWorld {["/opt/sirius"]} {["PATH" := "/usr/bin"]}
    (fun _ => None) (fun _ _ => ExecFailed ENOENT) [].

(** ** Symbolic execution of the process runner *)

Ltac run_step :=
  cbv [run_command bind when print ret with_open_w subprocess_run_check
       checked log emit set_fs announcement fs environ open_w child trace].

Lemma run_command_open_fails cmd output_fp verbose w e :
  open_w w output_fp = Some e ->
  run_command cmd output_fp verbose w =
    (Raise (OSErrno e output_fp),
     emit ((if verbose then announcement cmd else []) ++ [EvOpen output_fp]) w).
Proof.
  intros Hopen. destruct w as [s env o c t]. cbv [open_w] in Hopen.
  destruct verbose; run_step; rewrite Hopen;
    rewrite <- ?app_assoc; reflexivity.
Qed.

Lemma run_command_opened cmd output_fp verbose w :
  open_w w output_fp = None ->
  run_command cmd output_fp verbose w =
    (checked cmd (child w cmd (environ w)),
     emit ((if verbose then announcement cmd else [])
           ++ [EvOpen output_fp; EvSpawn cmd output_fp (environ w);
               EvClose output_fp])
          (set_fs ({[output_fp]} ∪ fs w) w)).
Proof.
  intros Hopen. destruct w as [s env o c t]. cbv [open_w] in Hopen.
  destruct verbose; run_step; rewrite Hopen;
    destruct (c cmd env) as [status | err];
    try destruct (bool_decide (status = 0));
    rewrite <- ?app_assoc; reflexivity.
Qed.

Ltac unfold_spec :=
  unfold cmdsir, stdout_txt, prologue, epilogue, setenv_events,
    restored_environ, java_environ, initial_flags in *.

Ltac same_world :=
  unfold emit, log, set_environ, set_fs;
  cbn -[announcement append os_path_join];
  rewrite <- ?app_assoc, ?insert_insert_eq, ?app_nil_r; reflexivity.

Section Artifactory.

Variables (sirius_path : string) (parameters : list string).
Variables (java_flags : option string) (constructor : M DirFmt).
Variables (w w1 : World) (artifact : DirFmt).

Lemma artifactory_constructor_raises e :
  constructor w = (Raise e, w1) ->
  artifactory sirius_path parameters java_flags constructor w
  = (Raise e, w1).
Proof. intros Hc. unfold artifactory, bind. rewrite Hc. reflexivity. Qed.

Hypothesis Hconstructed : constructor w = (Ok artifact, w1).

Lemma artifactory_not_located :
  sirius_path ∉ fs w1 ->
  artifactory sirius_path parameters java_flags constructor w
  = (Raise (OSError "SIRIUS could not be located"),
     emit [EvExists sirius_path] w1).
Proof.
  intros Hno. unfold artifactory, bind, os_path_exists. rewrite Hconstructed.
  rewrite bool_decide_eq_false_2 by exact Hno. reflexivity.
Qed.

Hypothesis Hlocated : sirius_path ∈ fs w1.

Let cmd := cmdsir sirius_path artifact parameters.
Let out := stdout_txt artifact.
Let env := environ w1.

Lemma artifactory_open_fails e :
  open_w w1 out = Some e ->
  artifactory sirius_path parameters java_flags constructor w
  = (Raise (OSErrno e out),
     emit (prologue sirius_path java_flags env
           ++ announcement cmd ++ [EvOpen out])
          (set_environ (java_environ java_flags env) w1)).
Proof.
  subst cmd out env. intros Hopen. unfold_spec.
  unfold artifactory, bind, os_path_exists. rewrite Hconstructed.
  rewrite bool_decide_eq_true_2 by exact Hlocated.
  destruct java_flags as [jf|];
    cbn -[run_command announcement append os_path_join];
    (erewrite run_command_open_fails by exact Hopen); same_world.
Qed.

Hypothesis Hopened : open_w w1 out = None.

Let outcome := child w1 cmd (java_environ java_flags env).

Let ran : list event :=
  prologue sirius_path java_flags env ++ announcement cmd
    ++ [EvOpen out; EvSpawn cmd out (java_environ java_flags env);
        EvClose out].

Lemma artifactory_tool_fails e :
  checked cmd outcome = Raise e ->
  artifactory sirius_path parameters java_flags constructor w
  = (Raise e,
     emit ran (set_environ (java_environ java_flags env)
                 (set_fs ({[out]} ∪ fs w1) w1))).
Proof.
  subst ran outcome cmd out env. intros Hfail. unfold_spec.
  unfold artifactory, bind, os_path_exists. rewrite Hconstructed.
  rewrite bool_decide_eq_true_2 by exact Hlocated.
  destruct java_flags as [jf|];
    cbn -[run_command announcement append os_path_join] in *;
    (erewrite run_command_opened by exact Hopened);
    cbn -[announcement append os_path_join];
    rewrite Hfail; same_world.
Qed.

Lemma artifactory_tool_succeeds :
  checked cmd outcome = Ok tt ->
  artifactory sirius_path parameters java_flags constructor w
  = (Ok artifact,
     emit (ran ++ epilogue java_flags env)
          (set_environ (restored_environ java_flags env)
             (set_fs ({[out]} ∪ fs w1) w1))).
Proof.
  subst ran outcome cmd out env. intros Hok. unfold_spec.
  unfold artifactory, bind, os_path_exists. rewrite Hconstructed.
  rewrite bool_decide_eq_true_2 by exact Hlocated.
  destruct java_flags as [jf|];
    cbn -[run_command announcement append os_path_join] in *;
    (erewrite run_command_opened by exact Hopened);
    cbn -[announcement append os_path_join];
    rewrite Hok; same_world.
Qed.

End Artifactory.

(** Every way a call of the factory can go, with the world it leaves. *)
Lemma artifactory_cases sirius_path parameters java_flags constructor w :
  match constructor w with
  | (Raise e, w1) =>
      artifactory sirius_path parameters java_flags constructor w
      = (Raise e, w1)
  | (Ok artifact, w1) =>
      let cmd := cmdsir sirius_path artifact parameters in
      let out := stdout_txt artifact in
      let env := java_environ java_flags (environ w1) in
      let ran := (prologue sirius_path java_flags (environ w1)
                  ++ announcement cmd
                  ++ [EvOpen out; EvSpawn cmd out env; EvClose out])%list in
      if decide (sirius_path ∈ fs w1) then
        match open_w w1 out with
        | Some e =>
            artifactory sirius_path parameters java_flags constructor w
            = (Raise (OSErrno e out),
               emit (prologue sirius_path java_flags (environ w1)
                     ++ announcement cmd ++ [EvOpen out])
                    (set_environ env w1))
        | None =>
            match checked cmd (child w1 cmd env) with
            | Raise e =>
                artifactory sirius_path parameters java_flags constructor w
                = (Raise e,
                   emit ran (set_environ env (set_fs ({[out]} ∪ fs w1) w1)))
            | Ok _ =>
                artifactory sirius_path parameters java_flags constructor w
                = (Ok artifact,
                   emit (ran ++ epilogue java_flags (environ w1))
                     (set_environ (restored_environ java_flags (environ w1))
                        (set_fs ({[out]} ∪ fs w1) w1)))
            end
        end
      else
        artifactory sirius_path parameters java_flags constructor w
        = (Raise (OSError "SIRIUS could not be located"),
           emit [EvExists sirius_path] w1)
  end.
Proof.
  destruct (constructor w) as [[artifact | e] w1] eqn:Hc.
  - cbv zeta. destruct (decide (sirius_path ∈ fs w1)) as [Hin | Hout].
    + destruct (open_w w1 (stdout_txt artifact)) as [e |] eqn:Hopen.
      * eapply artifactory_open_fails; eassumption.
      * destruct (checked _ _) as [[] | e] eqn:Hrun.
        -- eapply artifactory_tool_succeeds; eassumption.
        -- eapply artifactory_tool_fails; eassumption.
    + eapply artifactory_not_located; eassumption.
  - eapply artifactory_constructor_raises; eassumption.
Qed.

Lemma append_length (a b : string) :
  (String.length (a +:+ b) = String.length a + String.length b)%nat.
Proof. induction a as [| c a IH]; simpl; [reflexivity | now rewrite IH]. Qed.

Lemma append_grows (a b : string) : a +:+ " " +:+ b <> a.
Proof.
  intros Heq. apply (f_equal String.length) in Heq.
  rewrite !append_length in Heq. simpl in Heq. lia.
Qed.

Lemma spawns_app (t1 t2 : list event) :
  spawns (t1 ++ t2) = (spawns t1 ++ spawns t2)%list.
Proof. apply omap_app. Qed.

Lemma spawns_announcement (verbose : bool) cmd :
  spawns (if verbose then announcement cmd else []) = [].
Proof. destruct verbose; reflexivity. Qed.

Lemma new_events_app (constructor m : M DirFmt) w new :
  trace (m w).2 = (trace (constructor w).2 ++ new)%list ->
  new_events constructor m w = new.
Proof. intros H. unfold new_events. rewrite H. apply drop_app_length. Qed.

(** The factory starts the tool at most once, and with the command line
    [cmdsir]. *)
Lemma artifactory_new_events sirius_path parameters java_flags constructor w :
  exists new,
    trace (artifactory sirius_path parameters java_flags constructor w).2
    = (trace (constructor w).2 ++ new)%list
    /\ forall cmd out env,
         (cmd, out, env) ∈ spawns new ->
         exists artifact,
           (constructor w).1 = Ok artifact
           /\ cmd = cmdsir sirius_path artifact parameters
           /\ out = stdout_txt artifact.
Proof.
  pose proof (artifactory_cases sirius_path parameters java_flags
                constructor w) as Hcases.
  destruct (constructor w) as [[artifact | e] w1]; cbv zeta in Hcases.
  - destruct (decide _);
      [destruct (open_w _ _); [| destruct (checked _ _)] |];
      rewrite Hcases; clear Hcases;
      unfold emit, set_environ, set_fs; cbn [fst snd trace];
      (eexists; split; [reflexivity |]);
      unfold prologue, epilogue, setenv_events;
      destruct java_flags;
      rewrite ?spawns_app, ?(spawns_announcement true);
      cbn [spawns omap list_omap app];
      intros cmd out env Hel;
      first [ now inversion Hel
            | apply list_elem_of_singleton in Hel; inversion Hel; subst;
              exists artifact; repeat split ].
  - rewrite Hcases. exists []. cbn [fst snd]. rewrite app_nil_r.
    split; [reflexivity |]. intros cmd out env Hel. inversion Hel.
Qed.

Lemma artifactory_invokes sirius_path parameters java_flags constructor w
    params :
  invokes constructor
    (artifactory sirius_path parameters java_flags constructor) w params ->
  params = parameters.
Proof.
  intros (cmd & out & env & Hel & ->).
  destruct (artifactory_new_events sirius_path parameters java_flags
              constructor w) as (new & Htrace & Hspawns).
  rewrite (new_events_app _ _ _ _ Htrace) in Hel.
  destruct (Hspawns _ _ _ Hel) as (artifact & _ & -> & _). reflexivity.
Qed.

(** * The claims *)

(** C6.  When the child process of [run_command] exits with a nonzero
    status, [run_command] raises [CalledProcessError] carrying that status;
    when it exits with status zero, [run_command] returns normally.  Either
    way exactly one child process has been started: there is no retry. *)
Theorem run_command_exit_status cmd output_fp verbose w status :
  open_w w output_fp = None ->
  child w cmd (environ w) = Exited status ->
  (status <> 0 ->
     (run_command cmd output_fp verbose w).1
     = Raise (CalledProcessError status cmd))
  /\ (status = 0 -> (run_command cmd output_fp verbose w).1 = Ok tt)
  /\ spawns (trace (run_command cmd output_fp verbose w).2)
     = (spawns (trace w) ++ [(cmd, output_fp, environ w)])%list.
Proof.
  intros Hopen Hchild. rewrite (run_command_opened _ _ _ _ Hopen), Hchild.
  cbn [fst snd checked]. repeat split.
  - intros Hne. now rewrite bool_decide_eq_false_2.
  - intros He. now rewrite bool_decide_eq_true_2.
  - unfold emit, set_fs. cbn [trace]. rewrite !spawns_app, spawns_announcement.
    reflexivity.
Qed.

Lemma run_command_exit_status_witness :
  (run_command ["/opt/sirius/sirius"; "--version"] "/tmp/stdout.txt" true
     (world0 ∅ 3)).1
  = Raise (CalledProcessError 3 ["/opt/sirius/sirius"; "--version"]).
Proof.
  apply (run_command_exit_status ["/opt/sirius/sirius"; "--version"]
           "/tmp/stdout.txt" true (world0 ∅ 3) 3);
    [reflexivity | reflexivity | lia].
Defined.

(** C2, as the code has it.  The constructor of the result handle runs
    first.  When the executable root does not exist once the handle is
    built, the factory, and so each of the three stages, raises
    [OSError("SIRIUS could not be located")] having done nothing more than
    test the path: the world is the one the constructor left, with the
    existence test added to its trace.  No file is opened, no child process
    is started and [os.environ] is neither read nor written. *)
Theorem artifactory_tool_not_found sirius_path parameters java_flags
    constructor w artifact w1 :
  constructor w = (Ok artifact, w1) ->
  sirius_path ∉ fs w1 ->
  let not_found :=
    (Raise (OSError "SIRIUS could not be located"),
     emit [EvExists sirius_path] w1) in
  artifactory sirius_path parameters java_flags constructor w = not_found
  /\ (forall features ppm_max profile tree_timeout maxmz n_jobs
        num_candidates database ionization_mode,
        compute_fragmentation_trees constructor sirius_path features ppm_max
          profile tree_timeout maxmz n_jobs num_candidates database
          ionization_mode java_flags w = not_found)
  /\ (forall (float : Type) (str_float : float -> string) fragmentation_trees
        features zodiac_threshold n_jobs,
        rerank_molecular_formulas float str_float constructor sirius_path
          fragmentation_trees features zodiac_threshold n_jobs java_flags w
        = not_found)
  /\ (forall molecular_formulas ppm_max n_jobs fingerid_db,
        predict_fingerprints constructor sirius_path molecular_formulas
          ppm_max n_jobs fingerid_db java_flags w = not_found)
  /\ fs not_found.2 = fs w1
  /\ environ not_found.2 = environ w1
  /\ trace not_found.2 = (trace w1 ++ [EvExists sirius_path])%list.
Proof.
  intros Hc Hno not_found.
  assert (Hall : forall ps,
             artifactory sirius_path ps java_flags constructor w = not_found)
    by (intros ps; eapply artifactory_not_located; eassumption).
  repeat split; intros;
    unfold compute_fragmentation_trees, rerank_molecular_formulas,
      predict_fingerprints; auto.
Qed.

Lemma artifactory_tool_not_found_witness :
  artifactory "/nope" ["--quiet"] (Some "-Xmx4g") (new_dirfmt "SiriusDirFmt")
    (world0 ∅ 0)
  = (Raise (OSError "SIRIUS could not be located"),
     emit [EvExists "/nope"] (new_dirfmt "SiriusDirFmt" (world0 ∅ 0)).2).
Proof.
  apply (artifactory_tool_not_found "/nope" ["--quiet"] (Some "-Xmx4g")
           (new_dirfmt "SiriusDirFmt") (world0 ∅ 0)
           (mkDirFmt "/tmp/q2-SiriusDirFmt-0" "/tmp/q2-SiriusDirFmt-0")
           (new_dirfmt "SiriusDirFmt" (world0 ∅ 0)).2).
  - reflexivity.
  - apply (bool_decide_unpack _). vm_compute. exact I.
Defined.

(** C2, as stated, fails: the handle is constructed before the existence
    test.  With a constructor that allocates the handle's directory, a call
    with a nonexistent executable root raises, and the directory has been
    created by then. *)
Lemma tool_not_found_after_construction :
  let w0 := world0 ∅ 0 in
  let r := artifactory "/nope" ["--quiet"] None (new_dirfmt "SiriusDirFmt")
             w0 in
  r.1 = Raise (OSError "SIRIUS could not be located")
  /\ trace r.2 = [EvMkdir "/tmp/q2-SiriusDirFmt-0"; EvExists "/nope"]
  /\ ("/tmp/q2-SiriusDirFmt-0" ∉ fs w0)
  /\ ("/tmp/q2-SiriusDirFmt-0" ∈ fs r.2).
Proof.
  repeat split; try reflexivity;
    apply (bool_decide_unpack _); vm_compute; exact I.
Qed.

Lemma env_writes_app (t1 t2 : list event) :
  env_writes (t1 ++ t2) = (env_writes t1 ++ env_writes t2)%list.
Proof. apply omap_app. Qed.

Lemma opens_app (t1 t2 : list event) :
  opens (t1 ++ t2) = (opens t1 ++ opens t2)%list.
Proof. apply omap_app. Qed.

Lemma env_writes_announcement cmd : env_writes (announcement cmd) = [].
Proof. reflexivity. Qed.

Lemma opens_announcement cmd : opens (announcement cmd) = [].
Proof. reflexivity. Qed.

Ltac observe :=
  unfold emit, set_environ, set_fs; cbn [fst snd trace environ fs];
  unfold_spec;
  rewrite ?env_writes_app, ?opens_app, ?spawns_app,
    ?env_writes_announcement, ?opens_announcement,
    ?(spawns_announcement true);
  cbn [env_writes opens spawns omap list_omap app default].

(** C3, as the code has it.  After a successful call with extra runtime
    flags, [_JAVA_OPTIONS] is set to the value the factory read before
    changing it, the empty string standing for an unset variable: a
    variable that was set holds its pre-call value again and all of
    [os.environ] is as before the call; a variable that was unset is now
    set to the empty string.  (The constructor passed in is taken not to
    touch [os.environ].) *)
Theorem artifactory_restores_java_options sirius_path parameters jf
    constructor w artifact w1 a w' :
  constructor w = (Ok artifact, w1) ->
  environ w1 = environ w ->
  artifactory sirius_path parameters (Some jf) constructor w = (Ok a, w') ->
  environ w' !! "_JAVA_OPTIONS" = Some (initial_flags (environ w))
  /\ (forall v, environ w !! "_JAVA_OPTIONS" = Some v ->
        environ w' !! "_JAVA_OPTIONS" = Some v /\ environ w' = environ w)
  /\ (environ w !! "_JAVA_OPTIONS" = None ->
        environ w' = <["_JAVA_OPTIONS" := ""]> (environ w)).
Proof.
  intros Hc Henv Hres.
  pose proof (artifactory_cases sirius_path parameters (Some jf) constructor w)
    as Hcases.
  rewrite Hc in Hcases. cbv zeta in Hcases.
  destruct (decide _); [destruct (open_w _ _); [| destruct (checked _ _)] |];
    rewrite Hcases in Hres; inversion Hres; subst a w'; clear Hres Hcases.
  observe. rewrite Henv. repeat split.
  - apply lookup_insert_eq.
  - rewrite H. apply lookup_insert_eq.
  - rewrite H. now apply insert_id.
  - intros Hnone. now rewrite Hnone.
Qed.

Lemma artifactory_restores_java_options_witness :
  environ
    (artifactory "/opt/sirius" ["--quiet"] (Some "-Xmx4g")
       (new_dirfmt "SiriusDirFmt")
       (world0 {["_JAVA_OPTIONS" := "-Dfoo=bar"]} 0)).2
    !! "_JAVA_OPTIONS"
  = Some "-Dfoo=bar".
Proof.
  set (w := world0 {["_JAVA_OPTIONS" := "-Dfoo=bar"]} 0).
  set (call := artifactory "/opt/sirius" ["--quiet"] (Some "-Xmx4g")
                 (new_dirfmt "SiriusDirFmt")).
  set (artifact := mkDirFmt "/tmp/q2-SiriusDirFmt-0" "/tmp/q2-SiriusDirFmt-0").
  destruct (artifactory_restores_java_options "/opt/sirius" ["--quiet"]
              "-Xmx4g" (new_dirfmt "SiriusDirFmt") w artifact
              (new_dirfmt "SiriusDirFmt" w).2 artifact (call w).2)
    as (_ & Hset & _).
  - vm_compute. reflexivity.
  - vm_compute. reflexivity.
  - vm_compute. reflexivity.
  - apply (Hset "-Dfoo=bar"). vm_compute. reflexivity.
Defined.

(** C3, as stated, fails where the variable is unset before the call: it
    is then set, to the empty string, after a successful call. *)
Lemma java_options_unset_not_restored :
  let w0 := world0 ∅ 0 in
  let r := artifactory "/opt/sirius" ["--quiet"] (Some "-Xmx4g")
             (new_dirfmt "SiriusDirFmt") w0 in
  r.1 = Ok (mkDirFmt "/tmp/q2-SiriusDirFmt-0" "/tmp/q2-SiriusDirFmt-0")
  /\ environ w0 !! "_JAVA_OPTIONS" = None
  /\ environ r.2 !! "_JAVA_OPTIONS" = Some ""
  /\ environ r.2 !! "_JAVA_OPTIONS" <> environ w0 !! "_JAVA_OPTIONS".
Proof. vm_compute. repeat split; discriminate. Qed.

(** C4.  When the factory is called with extra runtime flags, the tool is
    located and the process runner raises, the exception propagates and the
    restoration is skipped: [_JAVA_OPTIONS] still holds the value read
    before the call followed by a space and the extra flags, which differs
    from what it held before the call; the only write to [os.environ] is
    the one that appended the flags.  (The constructor passed in is taken
    not to touch [os.environ].) *)
Theorem artifactory_failure_leaks_java_options sirius_path parameters jf
    constructor w artifact w1 e w' :
  constructor w = (Ok artifact, w1) ->
  environ w1 = environ w ->
  sirius_path ∈ fs w1 ->
  artifactory sirius_path parameters (Some jf) constructor w = (Raise e, w') ->
  environ w' !! "_JAVA_OPTIONS"
  = Some (initial_flags (environ w) +:+ " " +:+ jf)
  /\ environ w' !! "_JAVA_OPTIONS" <> environ w !! "_JAVA_OPTIONS"
  /\ exists new,
       trace w' = (trace w1 ++ new)%list
       /\ env_writes new
          = [("_JAVA_OPTIONS", initial_flags (environ w) +:+ " " +:+ jf)].
Proof.
  intros Hc Henv Hin Hres.
  pose proof (artifactory_cases sirius_path parameters (Some jf) constructor w)
    as Hcases.
  rewrite Hc in Hcases. cbv zeta in Hcases.
  destruct (decide _) as [_ | Hno]; [| contradiction].
  assert (Hneq : Some (initial_flags (environ w) +:+ " " +:+ jf)
                 <> environ w !! "_JAVA_OPTIONS").
  { unfold initial_flags. destruct (environ w !! "_JAVA_OPTIONS") as [v |];
      [| discriminate]. cbn [default]. intros [= Heq].
    exact (append_grows _ _ Heq). }
  destruct (open_w _ _); [| destruct (checked _ _)];
    rewrite Hcases in Hres; inversion Hres; subst; clear Hres Hcases;
    unfold emit, set_environ, set_fs; cbn [fst snd trace environ fs];
    unfold java_environ; rewrite Henv, lookup_insert_eq;
    (split; [reflexivity | split; [exact Hneq |]]);
    eexists; (split; [reflexivity |]);
    reflexivity.
Qed.

Lemma artifactory_failure_leaks_java_options_witness :
  environ
    (artifactory "/opt/sirius" ["--quiet"] (Some "-Xmx4g")
       (new_dirfmt "SiriusDirFmt")
       (world0 {["_JAVA_OPTIONS" := "-Dfoo=bar"]} 1)).2
    !! "_JAVA_OPTIONS"
  = Some "-Dfoo=bar -Xmx4g".
Proof.
  set (w := world0 {["_JAVA_OPTIONS" := "-Dfoo=bar"]} 1).
  set (call := artifactory "/opt/sirius" ["--quiet"] (Some "-Xmx4g")
                 (new_dirfmt "SiriusDirFmt")).
  set (artifact := mkDirFmt "/tmp/q2-SiriusDirFmt-0" "/tmp/q2-SiriusDirFmt-0").
  destruct (artifactory_failure_leaks_java_options "/opt/sirius" ["--quiet"]
              "-Xmx4g" (new_dirfmt "SiriusDirFmt") w artifact
              (new_dirfmt "SiriusDirFmt" w).2
              (CalledProcessError 1
                 ["/opt/sirius/sirius"; "-o"; "/tmp/q2-SiriusDirFmt-0";
                  "--quiet"])
              (call w).2)
    as (Hleak & _ & _).
  - vm_compute. reflexivity.
  - vm_compute. reflexivity.
  - apply (bool_decide_unpack _). vm_compute. exact I.
  - vm_compute. reflexivity.
  - rewrite Hleak. vm_compute. reflexivity.
Defined.

(** C10.  When [_JAVA_OPTIONS] is unset and extra runtime flags are
    supplied, the first write sets the variable to a space followed by the
    flags, a child process started by the call inherits that value, and
    after a successful call the variable is set to the empty string (it is
    written back, not removed).  When no extra runtime flags are supplied
    the factory never writes [os.environ], however the call ends. *)
Theorem java_options_unset_or_not_supplied :
  (forall sirius_path parameters jf constructor w artifact w1,
     constructor w = (Ok artifact, w1) ->
     environ w1 !! "_JAVA_OPTIONS" = None ->
     sirius_path ∈ fs w1 ->
     let r := artifactory sirius_path parameters (Some jf) constructor w in
     exists new,
       trace r.2 = (trace w1 ++ new)%list
       /\ (exists rest,
             env_writes new = ("_JAVA_OPTIONS", " " +:+ jf) :: rest)
       /\ (forall cmd out env,
             (cmd, out, env) ∈ spawns new ->
             env !! "_JAVA_OPTIONS" = Some (" " +:+ jf))
       /\ (forall a, r.1 = Ok a ->
             env_writes new
             = [("_JAVA_OPTIONS", " " +:+ jf); ("_JAVA_OPTIONS", "")]
             /\ environ r.2 !! "_JAVA_OPTIONS" = Some ""))
  /\ (forall sirius_path parameters constructor w,
        let r := artifactory sirius_path parameters None constructor w in
        exists new,
          trace r.2 = (trace (constructor w).2 ++ new)%list
          /\ env_writes new = []
          /\ environ r.2 = environ (constructor w).2).
Proof.
  split.
  - intros sirius_path parameters jf constructor w artifact w1 Hc Hunset Hin r.
    pose proof (artifactory_cases sirius_path parameters (Some jf)
                  constructor w) as Hcases.
    rewrite Hc in Hcases. cbv zeta in Hcases.
    destruct (decide _) as [_ | Hno]; [| contradiction].
    destruct (open_w _ _); [| destruct (checked _ _)];
      subst r; rewrite Hcases; clear Hcases;
      unfold emit, set_environ, set_fs; cbn [fst snd trace environ fs];
      unfold prologue, epilogue, setenv_events, java_environ,
        restored_environ, initial_flags;
      rewrite Hunset; cbn [default];
      eexists; (split; [reflexivity |]);
      rewrite ?env_writes_app, ?spawns_app, ?env_writes_announcement,
        ?(spawns_announcement true);
      cbn [env_writes spawns omap list_omap app];
      (split; [eexists; reflexivity |]);
      (split; [intros cmd out env Hel
              | intros ? Ha;
                first [discriminate Ha
                      | split; [reflexivity | apply lookup_insert_eq]]]).
    + inversion Hel.
    + apply list_elem_of_singleton in Hel. inversion Hel; subst.
      apply lookup_insert_eq.
    + apply list_elem_of_singleton in Hel. inversion Hel; subst.
      apply lookup_insert_eq.
  - intros sirius_path parameters constructor w r.
    pose proof (artifactory_cases sirius_path parameters None constructor w)
      as Hcases.
    destruct (constructor w) as [[artifact | e] w1]; cbv zeta in Hcases.
    + destruct (decide _);
        [destruct (open_w _ _); [| destruct (checked _ _)] |];
        subst r; rewrite Hcases; clear Hcases;
        unfold emit, set_environ, set_fs; cbn [fst snd trace environ fs];
        unfold prologue, epilogue, setenv_events, java_environ,
          restored_environ;
        eexists; (split; [reflexivity |]);
        rewrite ?env_writes_app, ?env_writes_announcement;
        split; reflexivity.
    + subst r. rewrite Hcases. exists []. cbn [fst snd].
      rewrite app_nil_r. repeat split.
Qed.

Lemma java_options_unset_or_not_supplied_witness :
  environ
    (artifactory "/opt/sirius" ["--quiet"] (Some "-Xmx4g")
       (new_dirfmt "SiriusDirFmt") (world0 ∅ 0)).2
    !! "_JAVA_OPTIONS"
  = Some "".
Proof.
  set (w := world0 ∅ 0).
  set (artifact := mkDirFmt "/tmp/q2-SiriusDirFmt-0" "/tmp/q2-SiriusDirFmt-0").
  destruct (proj1 java_options_unset_or_not_supplied "/opt/sirius"
              ["--quiet"] "-Xmx4g" (new_dirfmt "SiriusDirFmt") w artifact
              (new_dirfmt "SiriusDirFmt" w).2)
    as (new & _ & _ & _ & Hok).
  - vm_compute. reflexivity.
  - vm_compute. reflexivity.
  - apply (bool_decide_unpack _). vm_compute. exact I.
  - apply (Hok artifact). vm_compute. reflexivity.
Defined.

(** C5, as the code has it.  Once the handle [artifact] is built and the
    tool is located, the factory opens [os.path.join(str(artifact.path),
    "stdout.txt")] and, when that file can be opened, starts exactly one
    child process, with the command
    [[os.path.join(sirius_path, "sirius"), "-o", artifact.get_path()] +
    parameters] and that file as its standard output.  The executable is
    [sirius_path + "/sirius"] when [sirius_path] does not end with a
    separator and [sirius_path + "sirius"] when it does. *)
Theorem artifactory_command sirius_path parameters java_flags constructor w
    artifact w1 :
  constructor w = (Ok artifact, w1) ->
  sirius_path ∈ fs w1 ->
  (exists new,
     trace (artifactory sirius_path parameters java_flags constructor w).2
     = (trace w1 ++ new)%list
     /\ opens new = [os_path_join (path artifact) "stdout.txt"]
     /\ spawns new
        = match open_w w1 (os_path_join (path artifact) "stdout.txt") with
          | None =>
              [(([os_path_join sirius_path "sirius"; "-o"; get_path artifact]
                   ++ parameters)%list,
                os_path_join (path artifact) "stdout.txt",
                java_environ java_flags (environ w1))]
          | Some _ => []
          end)
  /\ (sirius_path <> "" -> endswith_char "/" sirius_path = false ->
      os_path_join sirius_path "sirius" = sirius_path +:+ "/sirius")
  /\ (endswith_char "/" sirius_path = true ->
      os_path_join sirius_path "sirius" = sirius_path +:+ "sirius").
Proof.
  intros Hc Hin. split; [| split].
  - pose proof (artifactory_cases sirius_path parameters java_flags
                  constructor w) as Hcases.
    rewrite Hc in Hcases. cbv zeta in Hcases.
    destruct (decide _) as [_ | Hno]; [| contradiction].
    unfold stdout_txt in Hcases.
    destruct (open_w _ _); [| destruct (checked _ _)];
      rewrite Hcases; clear Hcases;
      unfold emit, set_environ, set_fs; cbn [fst snd trace];
      (eexists; split; [reflexivity |]);
      unfold prologue, epilogue, setenv_events;
      destruct java_flags;
      rewrite ?spawns_app, ?opens_app, ?(spawns_announcement true),
        ?opens_announcement;
      split; reflexivity.
  - intros Hne Hend. unfold os_path_join. cbn [startswith_char].
    rewrite bool_decide_eq_false_2 by discriminate.
    rewrite (bool_decide_eq_false_2 _ Hne), Hend. reflexivity.
  - intros Hend. unfold os_path_join. cbn [startswith_char].
    rewrite bool_decide_eq_false_2 by discriminate.
    rewrite Hend, orb_true_r. reflexivity.
Qed.

Lemma artifactory_command_witness :
  os_path_join "/opt/sirius" "sirius" = "/opt/sirius" +:+ "/sirius".
Proof.
  set (w := world0 ∅ 0).
  apply (artifactory_command "/opt/sirius" ["--quiet"] None
           (new_dirfmt "SiriusDirFmt") w
           (mkDirFmt "/tmp/q2-SiriusDirFmt-0" "/tmp/q2-SiriusDirFmt-0")
           (new_dirfmt "SiriusDirFmt" w).2).
  - vm_compute. reflexivity.
  - apply (bool_decide_unpack _). vm_compute. exact I.
  - discriminate.
  - vm_compute. reflexivity.
Defined.

(** C5, as stated, fails for an executable root written with a trailing
    separator: the command starts with [sirius_path + "sirius"], not with
    [sirius_path + "/sirius"]. *)
Lemma artifactory_command_trailing_separator :
  let sirius_path := "/opt/sirius/" in
  let parameters := ["--quiet"] in
  let r := artifactory sirius_path parameters None
             (new_dirfmt "SiriusDirFmt") world_slash in
  exists artifact cmd out env,
    r.1 = Ok artifact
    /\ spawns (trace r.2) = [(cmd, out, env)]
    /\ cmd = ["/opt/sirius/sirius"; "-o"; "/tmp/q2-SiriusDirFmt-0"; "--quiet"]
    /\ cmd <> ([sirius_path +:+ "/sirius"; "-o"; get_path artifact]
                 ++ parameters)%list.
Proof.
  eexists _, _, _, _. split; [vm_compute; reflexivity |].
  split; [vm_compute; reflexivity |].
  split; [reflexivity |]. vm_compute. discriminate.
Qed.

(** C7.  For each of the three stages, the parameter list handed to the
    tool is a function of the stage's inputs alone: two calls with the same
    inputs, made in any two worlds (different file systems, environments,
    histories, tool behaviour), that both start the tool start it with the
    same parameter list, the one assembled from the inputs. *)
Theorem stage_parameters_deterministic :
  (forall SiriusDirFmt sirius_path features ppm_max profile tree_timeout
      maxmz n_jobs num_candidates database ionization_mode java_flags
      wa wb pa pb,
     let stage :=
       compute_fragmentation_trees SiriusDirFmt sirius_path features ppm_max
         profile tree_timeout maxmz n_jobs num_candidates database
         ionization_mode java_flags in
     invokes SiriusDirFmt stage wa pa ->
     invokes SiriusDirFmt stage wb pb ->
     pa = pb
     /\ pa = fragmentation_params features ppm_max profile tree_timeout
               maxmz n_jobs num_candidates database)
  /\ (forall (float : Type) (str_float : float -> string) ZodiacDirFmt
        sirius_path fragmentation_trees features zodiac_threshold n_jobs
        java_flags wa wb pa pb,
        let stage :=
          rerank_molecular_formulas float str_float ZodiacDirFmt sirius_path
            fragmentation_trees features zodiac_threshold n_jobs java_flags in
        invokes ZodiacDirFmt stage wa pa ->
        invokes ZodiacDirFmt stage wb pb ->
        pa = pb
        /\ pa = rerank_params float str_float fragmentation_trees features
                  zodiac_threshold n_jobs)
  /\ (forall CSIDirFmt sirius_path molecular_formulas ppm_max n_jobs
        fingerid_db java_flags wa wb pa pb,
        let stage :=
          predict_fingerprints CSIDirFmt sirius_path molecular_formulas
            ppm_max n_jobs fingerid_db java_flags in
        invokes CSIDirFmt stage wa pa ->
        invokes CSIDirFmt stage wb pb ->
        pa = pb
        /\ pa = fingerprint_params molecular_formulas ppm_max n_jobs
                  fingerid_db).
Proof.
  repeat split; intros;
    repeat match goal with
           | H : invokes _ _ _ _ |- _ =>
               apply artifactory_invokes in H; subst
           end;
    reflexivity.
Qed.

Lemma stage_parameters_deterministic_witness :
  drop 3 ["/opt/sirius/sirius"; "-o"; "/tmp/q2-SiriusDirFmt-0";
          "--processors"; "2"; "--fingerid"; "--fingerid-db"; "pubchem";
          "--ppm-max"; "10"; "/data/mgf"]
  = drop 3 ["/opt/sirius/sirius"; "-o"; "/tmp/q2-SiriusDirFmt-1";
            "--processors"; "2"; "--fingerid"; "--fingerid-db"; "pubchem";
            "--ppm-max"; "10"; "/data/mgf"].
Proof.
  apply (proj2 (proj2 stage_parameters_deterministic)
           (new_dirfmt "SiriusDirFmt") "/opt/sirius" features0 10 2 "pubchem"
           None (world0 ∅ 0) world1).
  - exists ["/opt/sirius/sirius"; "-o"; "/tmp/q2-SiriusDirFmt-0";
            "--processors"; "2"; "--fingerid"; "--fingerid-db"; "pubchem";
            "--ppm-max"; "10"; "/data/mgf"],
      "/tmp/q2-SiriusDirFmt-0/stdout.txt", ∅.
    split; [vm_compute; apply list_elem_of_here | reflexivity].
  - exists ["/opt/sirius/sirius"; "-o"; "/tmp/q2-SiriusDirFmt-1";
            "--processors"; "2"; "--fingerid"; "--fingerid-db"; "pubchem";
            "--ppm-max"; "10"; "/data/mgf"],
      "/tmp/q2-SiriusDirFmt-1/stdout.txt",
      {["_JAVA_OPTIONS" := "-Dfoo=bar"]}.
    split; [vm_compute; apply list_elem_of_here | reflexivity].
Defined.

(** C8.  The parameter list of [compute_fragmentation_trees], which is
    what the call hands to the factory, has a fixed shape of twenty-one
    tokens: it carries the buffer sizes ["1"] and ["32"] after
    [--initial-compound-buffer] and [--max-compound-buffer], and it ends
    with [--ppm-max], [str(ppm_max)] and the path of [features.mgf] in the
    features directory; with [ppm_max = 10] the token is ["10"]. *)
Theorem fragmentation_params_shape SiriusDirFmt sirius_path features ppm_max
    profile tree_timeout maxmz n_jobs num_candidates database ionization_mode
    java_flags :
  let params := fragmentation_params features ppm_max profile tree_timeout
                  maxmz n_jobs num_candidates database in
  compute_fragmentation_trees SiriusDirFmt sirius_path features ppm_max
    profile tree_timeout maxmz n_jobs num_candidates database
    ionization_mode java_flags
  = artifactory sirius_path params java_flags SiriusDirFmt
  /\ length params = 21%nat
  /\ take 5 params
     = ["--quiet"; "--initial-compound-buffer"; "1";
        "--max-compound-buffer"; "32"]
  /\ drop 18 params
     = ["--ppm-max"; str_int ppm_max;
        os_path_join (path features) "features.mgf"]
  /\ (exists front,
        params = (front ++ ["--ppm-max"; str_int ppm_max;
                            os_path_join (path features) "features.mgf"])%list)
  /\ str_int 10 = "10"
  /\ os_path_join "/data/mgf" "features.mgf" = "/data/mgf/features.mgf".
Proof.
  cbv zeta. split; [reflexivity |]. split; [reflexivity |].
  split; [reflexivity |]. split; [reflexivity |].
  split; [| split; reflexivity].
  exists (take 18 (fragmentation_params features ppm_max profile tree_timeout
                     maxmz n_jobs num_candidates database)).
  reflexivity.
Qed.

(** C9.  An [ionization_mode] other than [auto], [positive] and [negative]
    binds no ionization flag, and the call goes on exactly as for a
    recognised mode: it assembles the same parameter list and hands it to
    the factory, so in every world it ends as the call with mode [auto]
    does; nothing is raised on account of the mode. *)
Theorem unrecognized_ionization_mode_is_silent SiriusDirFmt sirius_path
    features ppm_max profile tree_timeout maxmz n_jobs num_candidates
    database ionization_mode java_flags :
  ionization_mode <> "auto" ->
  ionization_mode <> "positive" ->
  ionization_mode <> "negative" ->
  ionization_flag ionization_mode = None
  /\ compute_fragmentation_trees SiriusDirFmt sirius_path features ppm_max
       profile tree_timeout maxmz n_jobs num_candidates database
       ionization_mode java_flags
     = artifactory sirius_path
         (fragmentation_params features ppm_max profile tree_timeout maxmz
            n_jobs num_candidates database)
         java_flags SiriusDirFmt
  /\ forall w,
       compute_fragmentation_trees SiriusDirFmt sirius_path features ppm_max
         profile tree_timeout maxmz n_jobs num_candidates database
         ionization_mode java_flags w
       = compute_fragmentation_trees SiriusDirFmt sirius_path features
           ppm_max profile tree_timeout maxmz n_jobs num_candidates database
           "auto" java_flags w.
Proof.
  intros Hauto Hpositive Hnegative. repeat split.
  unfold ionization_flag.
  rewrite !bool_decide_eq_false_2 by assumption. reflexivity.
Qed.

Lemma unrecognized_ionization_mode_is_silent_witness :
  ionization_flag "neutral" = None.
Proof.
  refine (proj1 (unrecognized_ionization_mode_is_silent
                   (new_dirfmt "SiriusDirFmt") "/opt/sirius" features0 10
                   "orbitrap" 1600 600 2 75 "all" "neutral" None _ _ _));
    discriminate.
Defined.

(** C1.  The mode is mapped to a flag as the claim says, but the flag does
    not reach the tool: for mode [negative] the flag [--ion=[M-H]-] is
    computed, yet it is not in the parameter list, and the command started
    is the one below, without it. *)
Theorem ionization_flag_not_passed :
  ionization_flag "auto" = Some "--auto-charge"
  /\ ionization_flag "positive" = Some "--auto-charge"
  /\ ionization_flag "negative" = Some "--ion=[M-H]-"
  /\ ~ In "--ion=[M-H]-"
         (fragmentation_params features0 10 "orbitrap" 1600 600 2 75 "all")
  /\ ~ In "--auto-charge"
         (fragmentation_params features0 10 "orbitrap" 1600 600 2 75 "all")
  /\ map fst
       (spawns
          (trace
             (compute_fragmentation_trees (new_dirfmt "SiriusDirFmt")
                "/opt/sirius" features0 10 "orbitrap" 1600 600 2 75 "all"
                "negative" None (world0 ∅ 0)).2))
     = [(["/opt/sirius/sirius"; "-o"; "/tmp/q2-SiriusDirFmt-0"; "--quiet";
          "--initial-compound-buffer"; "1"; "--max-compound-buffer"; "32";
          "--profile"; "orbitrap"; "--database"; "all"; "--candidates";
          "75"; "--processors"; "2"; "--trust-ion-prediction"; "--maxmz";
          "600"; "--tree-timeout"; "1600"; "--ppm-max"; "10";
          "/data/mgf/features.mgf"],
         "/tmp/q2-SiriusDirFmt-0/stdout.txt")].
Proof.
  repeat split; try reflexivity.
  - vm_compute. intuition discriminate.
  - vm_compute. intuition discriminate.
Qed.

(** * Further properties of the module *)

(** ** The process runner *)

(** X1.  [run_command] prints its notice before it opens the output file
    and prints nothing afterwards, however the call ends: with [verbose] it
    prints four messages, the last one the command joined by single spaces
    and followed by an empty line; without [verbose] it prints nothing. *)
Theorem run_command_announcement cmd output_fp verbose w :
  exists rest,
    trace (run_command cmd output_fp verbose w).2
    = (trace w
       ++ map EvPrint
            (if verbose
             then ["Running external command line application. This may print messages to stdout and/or stderr." +:+ nl;
                   "The command being run is below. This command cannot be manually re-run as it will depend on temporary files that no longer exist." +:+ nl;
                   nl +:+ "Command: ";
                   str_join " " cmd +:+ nl +:+ nl]
             else [])
       ++ EvOpen output_fp :: rest)%list
    /\ prints rest = [].
Proof.
  destruct (open_w w output_fp) as [e |] eqn:Hopen.
  - rewrite (run_command_open_fails _ _ _ _ _ Hopen).
    exists []. unfold emit. cbn [snd trace].
    destruct verbose; split; reflexivity.
  - rewrite (run_command_opened _ _ _ _ Hopen).
    exists [EvSpawn cmd output_fp (environ w); EvClose output_fp].
    unfold emit, set_fs. cbn [snd trace].
    destruct verbose; split; reflexivity.
Qed.

(** X2.  When the output file cannot be opened, [run_command] raises the
    operating system's error for that file and no child process is started;
    the file system and [os.environ] are as before. *)
Theorem run_command_open_failure cmd output_fp verbose w e :
  open_w w output_fp = Some e ->
  (run_command cmd output_fp verbose w).1 = Raise (OSErrno e output_fp)
  /\ spawns (trace (run_command cmd output_fp verbose w).2)
     = spawns (trace w)
  /\ fs (run_command cmd output_fp verbose w).2 = fs w
  /\ environ (run_command cmd output_fp verbose w).2 = environ w.
Proof.
  intros Hopen. rewrite (run_command_open_fails _ _ _ _ _ Hopen).
  unfold emit. cbn [fst snd trace fs environ]. repeat split.
  rewrite !spawns_app, spawns_announcement. cbn. apply app_nil_r.
Qed.

Lemma run_command_open_failure_witness :
  (run_command ["/opt/sirius/sirius"] "/ro/stdout.txt" true world_readonly).1
  = Raise (OSErrno EACCES "/ro/stdout.txt").
Proof.
  refine (proj1 (run_command_open_failure ["/opt/sirius/sirius"]
                   "/ro/stdout.txt" true world_readonly EACCES _)).
  reflexivity.
Defined.



(** ** The artifact factory *)

Ltac factory_cases sirius_path parameters java_flags constructor w H :=
  pose proof (artifactory_cases sirius_path parameters java_flags
                constructor w) as H;
  cbv zeta in H.







(** X6.  On every path, and whatever the extra runtime flags, the factory
    leaves every environment variable other than [_JAVA_OPTIONS] as the
    constructor left it, and the tool, when started, sees those variables
    unchanged too. *)
Theorem artifactory_other_variables_untouched sirius_path parameters
    java_flags constructor w k :
  k <> "_JAVA_OPTIONS" ->
  environ (artifactory sirius_path parameters java_flags constructor w).2
    !! k
  = environ (constructor w).2 !! k
  /\ forall cmd out env,
       (cmd, out, env)
       ∈ spawns (new_events constructor
                   (artifactory sirius_path parameters java_flags constructor)
                   w) ->
       env !! k = environ (constructor w).2 !! k.
Proof.
  intros Hk.
  assert (Hjava : forall jf env, java_environ jf env !! k = env !! k).
  { intros [jf |] env; cbn; [| reflexivity].
    now rewrite lookup_insert_ne by congruence. }
  assert (Hrest : forall jf env, restored_environ jf env !! k = env !! k).
  { intros [jf |] env; cbn; [| reflexivity].
    now rewrite lookup_insert_ne by congruence. }
  unfold new_events.
  factory_cases sirius_path parameters java_flags constructor w Hcases.
  destruct (constructor w) as [[artifact | e] w1].
  - destruct (decide _);
      [destruct (open_w _ _); [| destruct (checked _ _)] |];
      rewrite Hcases; clear Hcases;
      unfold emit, set_environ, set_fs; cbn [fst snd trace environ];
      rewrite drop_app_length, ?spawns_app, ?(spawns_announcement true);
      unfold prologue, epilogue, setenv_events;
      (split; [first [apply Hjava | apply Hrest | reflexivity] |]);
      intros cmd out env; destruct java_flags;
      cbn [spawns omap list_omap app];
      rewrite ?app_nil_r; intros Hel;
      first [ now inversion Hel
            | apply list_elem_of_singleton in Hel;
              apply (f_equal snd) in Hel; cbn [snd] in Hel; subst env;
              apply Hjava ].
  - rewrite Hcases. cbn [snd]. rewrite drop_all. split; [reflexivity |].
    intros cmd out env Hel. inversion Hel.
Qed.

Lemma artifactory_other_variables_untouched_witness :
  environ
    (artifactory "/opt/sirius" ["--quiet"] (Some "-Xmx4g")
       (new_dirfmt "SiriusDirFmt") world_noexec).2
    !! "PATH"
  = Some "/usr/bin".
Proof.
  destruct (artifactory_other_variables_untouched "/opt/sirius" ["--quiet"]
              (Some "-Xmx4g") (new_dirfmt "SiriusDirFmt") world_noexec
              "PATH") as [Hsame _].
  - discriminate.
  - rewrite Hsame. vm_compute. reflexivity.
Defined.

(** X7.  The flags left behind by a failed call reach the next one: after
    a call with extra runtime flags whose process runner raised, a
    following call made without extra flags starts the tool, once, in an
    environment where [_JAVA_OPTIONS] still carries the flags of the failed
    call.  (The constructors are taken not to touch [os.environ].) *)
Theorem leaked_flags_reach_next_call sirius_path parameters jf constructor w
    artifact w1 e w' parameters2 constructor2 artifact2 w2 :
  constructor w = (Ok artifact, w1) ->
  environ w1 = environ w ->
  sirius_path ∈ fs w1 ->
  artifactory sirius_path parameters (Some jf) constructor w = (Raise e, w') ->
  constructor2 w' = (Ok artifact2, w2) ->
  environ w2 = environ w' ->
  sirius_path ∈ fs w2 ->
  open_w w2 (os_path_join (path artifact2) "stdout.txt") = None ->
  exists env,
    spawns (new_events constructor2
              (artifactory sirius_path parameters2 None constructor2) w')
    = [(([os_path_join sirius_path "sirius"; "-o"; get_path artifact2]
           ++ parameters2)%list,
        os_path_join (path artifact2) "stdout.txt", env)]
    /\ env !! "_JAVA_OPTIONS"
       = Some (initial_flags (environ w) +:+ " " +:+ jf).
Proof.
  intros Hc Henv Hin Hres.
  assert (Hleak : environ w' !! "_JAVA_OPTIONS"
                  = Some (initial_flags (environ w) +:+ " " +:+ jf)).
  { factory_cases sirius_path parameters (Some jf) constructor w Hcases.
    rewrite Hc in Hcases.
    destruct (decide _) as [_ | Hno]; [| contradiction].
    destruct (open_w _ _); [| destruct (checked _ _)];
      rewrite Hcases in Hres; inversion Hres; subst;
      unfold emit, set_environ, set_fs, java_environ; cbn [environ];
      rewrite Henv; apply lookup_insert_eq. }
  clear Hc Hin Hres. intros Hc2 Henv2 Hin2 Hopen2.
  exists (environ w2). rewrite Henv2. split; [| exact Hleak].
  unfold new_events.
  factory_cases sirius_path parameters2 (@None string) constructor2 w' Hcases.
  rewrite Hc2 in Hcases |- *.
  destruct (decide _) as [_ | Hno]; [| contradiction].
  unfold stdout_txt in Hcases. rewrite Hopen2 in Hcases.
  destruct (checked _ _); rewrite Hcases; clear Hcases;
    unfold emit, set_environ, set_fs; cbn [snd trace];
    rewrite drop_app_length;
    unfold prologue, epilogue, setenv_events, java_environ, cmdsir;
    rewrite ?spawns_app, ?(spawns_announcement true);
    cbn [spawns omap list_omap app]; rewrite ?app_nil_r, Henv2; reflexivity.
Qed.

Lemma leaked_flags_reach_next_call_witness :
  exists env,
    spawns (new_events (new_dirfmt "ZodiacDirFmt")
              (artifactory "/opt/sirius" ["--zodiac"] None
                 (new_dirfmt "ZodiacDirFmt"))
              (artifactory "/opt/sirius" ["--quiet"] (Some "-Xmx4g")
                 (new_dirfmt "SiriusDirFmt")
                 (world0 {["_JAVA_OPTIONS" := "-Dfoo=bar"]} 1)).2)
    = [(["/opt/sirius/sirius"; "-o"; "/tmp/q2-ZodiacDirFmt-11"; "--zodiac"],
        "/tmp/q2-ZodiacDirFmt-11/stdout.txt", env)]
    /\ env !! "_JAVA_OPTIONS" = Some "-Dfoo=bar -Xmx4g".
Proof.
  set (w := world0 {["_JAVA_OPTIONS" := "-Dfoo=bar"]} 1).
  set (call := artifactory "/opt/sirius" ["--quiet"] (Some "-Xmx4g")
                 (new_dirfmt "SiriusDirFmt")).
  apply (leaked_flags_reach_next_call "/opt/sirius" ["--quiet"] "-Xmx4g"
           (new_dirfmt "SiriusDirFmt") w
           (mkDirFmt "/tmp/q2-SiriusDirFmt-0" "/tmp/q2-SiriusDirFmt-0")
           (new_dirfmt "SiriusDirFmt" w).2
           (CalledProcessError 1
              ["/opt/sirius/sirius"; "-o"; "/tmp/q2-SiriusDirFmt-0";
               "--quiet"])
           (call w).2 ["--zodiac"] (new_dirfmt "ZodiacDirFmt")
           (mkDirFmt "/tmp/q2-ZodiacDirFmt-11" "/tmp/q2-ZodiacDirFmt-11")
           (new_dirfmt "ZodiacDirFmt" (call w).2).2).
  - vm_compute. reflexivity.
  - vm_compute. reflexivity.
  - apply (bool_decide_unpack _). vm_compute. exact I.
  - vm_compute. reflexivity.
  - vm_compute. reflexivity.
  - vm_compute. reflexivity.
  - apply (bool_decide_unpack _). vm_compute. exact I.
  - reflexivity.
Defined.

(** X9.  Whatever its arguments and however it ends, one call of the
    factory opens at most one file, starts at most one child process,
    writes [os.environ] at most twice and only at [_JAVA_OPTIONS], and
    creates no directory of its own after the constructor has run. *)
Theorem artifactory_bounded_effects sirius_path parameters java_flags
    constructor w :
  exists new,
    trace (artifactory sirius_path parameters java_flags constructor w).2
    = (trace (constructor w).2 ++ new)%list
    /\ (length (opens new) <= 1)%nat
    /\ (length (spawns new) <= 1)%nat
    /\ (length (env_writes new) <= 2)%nat
    /\ (forall k v, (k, v) ∈ env_writes new -> k = "_JAVA_OPTIONS")
    /\ (forall d, EvMkdir d ∉ new).
Proof.
  factory_cases sirius_path parameters java_flags constructor w Hcases.
  destruct (constructor w) as [[artifact | e] w1].
  - destruct (decide _);
      [destruct (open_w _ _); [| destruct (checked _ _)] |];
      rewrite Hcases; clear Hcases;
      unfold emit, set_environ, set_fs; cbn [fst snd trace];
      (eexists; split; [reflexivity |]);
      unfold prologue, epilogue, setenv_events;
      destruct java_flags;
      rewrite ?spawns_app, ?opens_app, ?env_writes_app,
        ?(spawns_announcement true), ?opens_announcement,
        ?env_writes_announcement;
      cbn [spawns opens env_writes omap list_omap app length];
      (split; [lia |]); (split; [lia |]); (split; [lia |]);
      (split;
       [ intros k v Hel;
         repeat (apply elem_of_cons in Hel as [[= -> _] | Hel];
                 [reflexivity |]);
         inversion Hel
       | intros d Hel; unfold announcement in Hel;
         repeat (apply elem_of_app in Hel as [Hel | Hel]);
         repeat (apply elem_of_cons in Hel as [Hel | Hel];
                 [discriminate Hel |]);
         inversion Hel ]).
  - rewrite Hcases. exists []. cbn [snd]. rewrite app_nil_r.
    split; [reflexivity |]. cbn. repeat split; try lia.
    + intros k v Hel. inversion Hel.
    + intros d Hel. inversion Hel.
Qed.

(** ** The stages as a pipeline *)

(** When the factory returns a handle, the tool was started exactly once
    since the constructor ran, with [-o] pointing into that handle. *)
Lemma artifactory_ok_spawns sirius_path parameters java_flags constructor w
    a w' :
  artifactory sirius_path parameters java_flags constructor w = (Ok a, w') ->
  spawns (new_events constructor
            (artifactory sirius_path parameters java_flags constructor) w)
  = [(cmdsir sirius_path a parameters, stdout_txt a,
      java_environ java_flags (environ (constructor w).2))].
Proof.
  intros Hres. unfold new_events. rewrite Hres.
  factory_cases sirius_path parameters java_flags constructor w Hcases.
  destruct (constructor w) as [[artifact | e] w1];
    [| rewrite Hcases in Hres; discriminate].
  destruct (decide _) as [Hin | _];
    [| rewrite Hcases in Hres; discriminate].
  destruct (open_w _ _) eqn:Hopen;
    [rewrite Hcases in Hres; discriminate |].
  destruct (checked _ _) as [[] | e] eqn:Hrun;
    rewrite Hcases in Hres; inversion Hres; subst a w'.
  unfold emit, set_environ, set_fs. cbn [snd trace environ].
  rewrite drop_app_length.
  unfold prologue, epilogue, setenv_events. destruct java_flags;
    rewrite ?spawns_app, ?(spawns_announcement true);
    cbn [spawns omap list_omap app]; reflexivity.
Qed.

(** X8.  The stages chain through their handles.  When
    [compute_fragmentation_trees] returns [trees], the directory it told
    the tool to write with [-o] is [trees.get_path()], and
    [rerank_molecular_formulas] given [trees] tells the tool to read that
    same directory after [--sirius]; when that call returns [formulas], the
    directory it wrote with [-o] is [formulas.get_path()], which
    [predict_fingerprints] given [formulas] passes as the last argument.
    Both of the first two stages read the same [features.mgf]. *)
Theorem pipeline_directories (float : Type) (str_float : float -> string)
    SiriusDirFmt ZodiacDirFmt CSIDirFmt sirius_path features ppm_max profile
    tree_timeout maxmz n_jobs num_candidates database ionization_mode
    zodiac_threshold fingerid_db java_flags wa wa' trees wb wb' formulas wc :
  compute_fragmentation_trees SiriusDirFmt sirius_path features ppm_max
    profile tree_timeout maxmz n_jobs num_candidates database
    ionization_mode java_flags wa = (Ok trees, wa') ->
  rerank_molecular_formulas float str_float ZodiacDirFmt sirius_path trees
    features zodiac_threshold n_jobs java_flags wb = (Ok formulas, wb') ->
  exists cmd1 cmd2,
    map (fun r => r.1.1)
      (spawns (new_events SiriusDirFmt
                 (compute_fragmentation_trees SiriusDirFmt sirius_path
                    features ppm_max profile tree_timeout maxmz n_jobs
                    num_candidates database ionization_mode java_flags) wa))
    = [cmd1]
    /\ map (fun r => r.1.1)
         (spawns (new_events ZodiacDirFmt
                    (rerank_molecular_formulas float str_float ZodiacDirFmt
                       sirius_path trees features zodiac_threshold n_jobs
                       java_flags) wb))
       = [cmd2]
    /\ take 3 (drop 1 cmd1) = ["-o"; get_path trees; "--quiet"]
    /\ take 3 (drop 1 cmd2) = ["-o"; get_path formulas; "--zodiac"]
    /\ take 2 (drop 4 cmd2) = ["--sirius"; get_path trees]
    /\ last cmd1 = Some (os_path_join (path features) "features.mgf")
    /\ last cmd2 = Some (os_path_join (path features) "features.mgf")
    /\ forall cmd3 out env,
         (cmd3, out, env)
         ∈ spawns (new_events CSIDirFmt
                     (predict_fingerprints CSIDirFmt sirius_path formulas
                        ppm_max n_jobs fingerid_db java_flags) wc) ->
         last cmd3 = Some (get_path formulas).
Proof.
  intros Htrees Hformulas.
  unfold compute_fragmentation_trees in Htrees |- *.
  unfold rerank_molecular_formulas in Hformulas |- *.
  rewrite (artifactory_ok_spawns _ _ _ _ _ _ _ Htrees).
  rewrite (artifactory_ok_spawns _ _ _ _ _ _ _ Hformulas).
  eexists _, _. split; [reflexivity |]. split; [reflexivity |].
  repeat (split; [reflexivity |]).
  intros cmd3 out env Hel.
  destruct (artifactory_new_events sirius_path
              (fingerprint_params formulas ppm_max n_jobs fingerid_db)
              java_flags CSIDirFmt wc) as (new & Htrace & Hspawns).
  unfold predict_fingerprints in Hel.
  rewrite (new_events_app _ _ _ _ Htrace) in Hel.
  destruct (Hspawns _ _ _ Hel) as (artifact & _ & -> & _). reflexivity.
Qed.

Lemma pipeline_directories_witness :
  map (fun r => r.1.1)
    (spawns (new_events (new_dirfmt "ZodiacDirFmt")
               (rerank_molecular_formulas string id
                  (new_dirfmt "ZodiacDirFmt") "/opt/sirius"
                  (mkDirFmt "/tmp/q2-SiriusDirFmt-0" "/tmp/q2-SiriusDirFmt-0")
                  features0 "0.95" 2 None)
               (compute_fragmentation_trees (new_dirfmt "SiriusDirFmt")
                  "/opt/sirius" features0 10 "orbitrap" 1600 600 2 75 "all"
                  "auto" None (world0 ∅ 0)).2))
  = [["/opt/sirius/sirius"; "-o"; "/tmp/q2-ZodiacDirFmt-10"; "--zodiac";
      "--sirius"; "/tmp/q2-SiriusDirFmt-0"; "--thresholdfilter"; "0.95";
      "--processors"; "2"; "--spectra"; "/data/mgf/features.mgf"]].
Proof.
  set (w := world0 ∅ 0).
  set (stage1 := compute_fragmentation_trees (new_dirfmt "SiriusDirFmt")
                   "/opt/sirius" features0 10 "orbitrap" 1600 600 2 75 "all"
                   "auto" None).
  set (trees := mkDirFmt "/tmp/q2-SiriusDirFmt-0" "/tmp/q2-SiriusDirFmt-0").
  set (stage2 := rerank_molecular_formulas string id
                   (new_dirfmt "ZodiacDirFmt") "/opt/sirius" trees features0
                   "0.95" 2 None).
  destruct (pipeline_directories string id (new_dirfmt "SiriusDirFmt")
              (new_dirfmt "ZodiacDirFmt") (new_dirfmt "CSIDirFmt")
              "/opt/sirius" features0 10 "orbitrap" 1600 600 2 75 "all"
              "auto" "0.95" "pubchem" None w (stage1 w).2 trees
              (stage1 w).2 (stage2 (stage1 w).2).2
              (mkDirFmt "/tmp/q2-ZodiacDirFmt-10" "/tmp/q2-ZodiacDirFmt-10")
              w)
    as (cmd1 & cmd2 & _ & Hcmd2 & _).
  - vm_compute. reflexivity.
  - vm_compute. reflexivity.
  - vm_compute. reflexivity.
Defined.
